(** * Read-write transactions of the Cloud Spanner client

    A shallow embedding of [src/spanner/src/transaction_rw.rs]: the
    locking read-write transaction, its mutating statements, its write
    buffer, the free [commit] function and the finalisation policy
    [ReadWriteTransaction::finish].

    The RPC stubs are modelled by a [Server] record of functions, each
    answering a request given the history of events so far, so every
    theorem holds for every (history-dependent) server.  Every call
    issued through the session is recorded in a trace of [Event]s: an
    [EvRpc] when a request is sent, an [EvReport] when the raw result is
    handed to the session's [invalidate_if_needed]. *)

From Stdlib Require Import List String ZArith Lia Bool.
Import ListNotations.

(* ------------------------------------------------------------------ *)
(** ** Results, statuses and wire data *)

Inductive Result (T E : Type) : Type :=
| Ok (v : T)
| Err (e : E).
Arguments Ok {T E} v.
Arguments Err {T E} e.

(** [tonic::Code] *)
Module Code.
Inductive t : Type :=
| Ok | Cancelled | Unknown | InvalidArgument | DeadlineExceeded | NotFound
| AlreadyExists | PermissionDenied | ResourceExhausted | FailedPrecondition
| Aborted | OutOfRange | Unimplemented | Internal | Unavailable | DataLoss
| Unauthenticated.
End Code.

(** [tonic::Status] *)
Record Status : Type := {
  code : Code.t;
  message : string;
}.

(** [Vec<u8>] *)
Definition bytes := list Byte.byte.

(** [prost_types::Timestamp] *)
Record Timestamp : Type := {
  seconds : Z;
  nanos : Z;
}.

(** [Mutation]: opaque to this module, it is only buffered and copied. *)
Inductive MutationOp : Type :=
| Insert | Update | InsertOrUpdate | Replace | Delete.

Record Mutation : Type := {
  m_op : MutationOp;
  m_table : string;
  m_columns : list string;
}.

(** [crate::statement::Statement] *)
Record Statement : Type := {
  sql : string;
  params : list (string * string);
  param_types : list (string * string);
}.

(** [transaction_options::Mode] *)
Inductive Mode : Type :=
| ReadWrite
| PartitionedDml
| ReadOnly.

Record TransactionOptions : Type := {
  mode : option Mode;
}.

(** [transaction_selector::Selector] *)
Inductive Selector : Type :=
| Selector_Id (id : bytes)
| Selector_Begin (opts : TransactionOptions)
| Selector_SingleUse (opts : TransactionOptions).

Record TransactionSelector : Type := {
  selector : option Selector;
}.

(** [commit_request::Transaction] *)
Inductive CommitTransaction : Type :=
| TransactionId (id : bytes)
| SingleUseTransaction (opts : TransactionOptions).

(** [RequestOptions]; the priority is the protobuf enum value. *)
Record RequestOptions : Type := {
  priority : Z;
}.

(** [execute_sql_request::QueryMode] *)
Inductive QueryMode : Type :=
| Normal | Plan | Profile.

(** [crate::transaction::CallOptions]; the retry setting is handed to the
    transport layer only and does not reach any request. *)
Record CallOptions : Type := {
  co_priority : option Z;
}.

Definition CallOptions_default : CallOptions := {| co_priority := None |}.

(** [crate::transaction::QueryOptions] *)
Record QueryOptions : Type := {
  qo_mode : QueryMode;
  qo_call_options : CallOptions;
}.

Definition QueryOptions_default : QueryOptions :=
  {| qo_mode := Normal; qo_call_options := CallOptions_default |}.

(** [CommitOptions] and its [Default] implementation (lines 29-42). *)
Record CommitOptions : Type := {
  return_commit_stats : bool;
  call_options : CallOptions;
}.

Definition CommitOptions_default : CommitOptions :=
  {| return_commit_stats := false; call_options := CallOptions_default |}.

(** Modelled from the spec: [Transaction::create_request_options] of
    [transaction.rs], which forwards the caller-supplied priority. *)
Definition create_request_options (p : option Z) : option RequestOptions :=
  match p with
  | Some s => Some {| priority := s |}
  | None => None
  end.

(** Requests. *)
Record BeginTransactionRequest : Type := {
  bt_session : string;
  bt_options : option TransactionOptions;
  bt_request_options : option RequestOptions;
}.

Record ExecuteSqlRequest : Type := {
  es_session : string;
  es_transaction : option TransactionSelector;
  es_sql : string;
  es_params : list (string * string);
  es_param_types : list (string * string);
  es_query_mode : QueryMode;
  es_seqno : Z;
  es_request_options : option RequestOptions;
}.

(** [execute_batch_dml_request::Statement] *)
Record BatchStatement : Type := {
  bs_sql : string;
  bs_params : list (string * string);
  bs_param_types : list (string * string);
}.

Record ExecuteBatchDmlRequest : Type := {
  eb_session : string;
  eb_transaction : option TransactionSelector;
  eb_seqno : Z;
  eb_request_options : option RequestOptions;
  eb_statements : list BatchStatement;
}.

Record CommitRequest : Type := {
  cr_session : string;
  cr_mutations : list Mutation;
  cr_transaction : option CommitTransaction;
  cr_request_options : option RequestOptions;
  cr_return_commit_stats : bool;
}.

Record RollbackRequest : Type := {
  rb_transaction_id : bytes;
  rb_session : string;
}.

(** Responses. *)
Record TransactionPb : Type := {
  tx_pb_id : bytes;
}.

(** [result_set_stats::RowCount] *)
Inductive RowCount : Type :=
| RowCountExact (v : Z)
| RowCountLowerBound (v : Z).

Record ResultSetStats : Type := {
  row_count : option RowCount;
}.

Record ResultSet : Type := {
  rs_stats : option ResultSetStats;
}.

Record ExecuteBatchDmlResponse : Type := {
  result_sets : list ResultSet;
  ebr_status : option Status;
}.

Record CommitStats : Type := {
  mutation_count : Z;
}.

Record CommitResponse : Type := {
  commit_timestamp : option Timestamp;
  commit_stats : option CommitStats;
}.

(* ------------------------------------------------------------------ *)
(** ** Sessions, transactions and the trace of calls *)

(** [Session] *)
Record Session : Type := {
  name : string;
}.

(** [ManagedSession]: the leased handle.  [ms_id] is the identity of the
    lease (the object moved in and out of the transaction); [ms_valid] is
    the validity flag that [invalidate_if_needed] may clear. *)
Record ManagedSession : Type := {
  ms_id : nat;
  ms_session : Session;
  ms_valid : bool;
}.

(** [crate::transaction::Transaction]: [begin_internal] always stores
    [Some(session)], and nothing in this module takes it out, so the
    session is kept unwrapped. *)
Record Transaction : Type := {
  session : ManagedSession;
  sequence_number : Z;
  transaction_selector : TransactionSelector;
}.

(** [ReadWriteTransaction] (lines 96-100). *)
Record ReadWriteTransaction : Type := {
  base_tx : Transaction;
  tx_id : bytes;
  wb : list Mutation;
}.

(** [BeginError] (lines 116-119). *)
Record BeginError : Type := {
  be_status : Status;
  be_session : ManagedSession;
}.

Inductive Request : Type :=
| RqBeginTransaction (r : BeginTransactionRequest)
| RqExecuteSql (r : ExecuteSqlRequest)
| RqExecuteBatchDml (r : ExecuteBatchDmlRequest)
| RqCommit (r : CommitRequest)
| RqRollback (r : RollbackRequest).

(** [EvReport o]: [invalidate_if_needed] received a raw result, [None] for
    [Ok(_)] and [Some s] for [Err(s)]. *)
Inductive Event : Type :=
| EvRpc (rq : Request)
| EvReport (o : option Status).

Definition outcome {A : Type} (r : Result A Status) : option Status :=
  match r with
  | Ok _ => None
  | Err s => Some s
  end.

(** The generated [SpannerClient] stubs: each answers a request, given
    the events issued so far. *)
Record Server : Type := {
  srv_begin_transaction : list Event -> BeginTransactionRequest -> Result TransactionPb Status;
  srv_execute_sql : list Event -> ExecuteSqlRequest -> Result ResultSet Status;
  srv_execute_batch_dml : list Event -> ExecuteBatchDmlRequest -> Result ExecuteBatchDmlResponse Status;
  srv_commit : list Event -> CommitRequest -> Result CommitResponse Status;
  srv_rollback : list Event -> RollbackRequest -> Result unit Status;
}.

(** Modelled from the spec: [ManagedSession::invalidate_if_needed] of
    [session_pool.rs].  The result is passed on unchanged; on a failure
    the handle may mark itself invalid, as decided by [invalidates]. *)
Definition invalidate_if_needed {A : Type} (invalidates : Status -> bool)
  (s : ManagedSession) (r : Result A Status) : ManagedSession * Result A Status :=
  match r with
  | Ok v => (s, Ok v)
  | Err e =>
      (if invalidates e
       then {| ms_id := ms_id s; ms_session := ms_session s; ms_valid := false |}
       else s, Err e)
  end.

(** [i64] wrap-around, as [AtomicI64::fetch_add] does. *)
Definition wrap_i64 (z : Z) : Z := (z + 2 ^ 63) mod 2 ^ 64 - 2 ^ 63.

(** Traits bounding the error type of [finish]. *)
Class AsTonicStatus (E : Type) := as_tonic_status : E -> option Status.
Class FromStatus (E : Type) := from_status : Status -> E.

#[export] Instance Status_AsTonicStatus : AsTonicStatus Status := fun s => Some s.
#[export] Instance Status_FromStatus : FromStatus Status := fun s => s.

(* ------------------------------------------------------------------ *)
(** ** A state monad over the open transaction and the trace *)

Record TxSt : Type := {
  tx : ReadWriteTransaction;
  trace : list Event;
}.

Definition St (A : Type) : Type := TxSt -> A * TxSt.

Definition ret {A : Type} (a : A) : St A := fun s => (a, s).

Definition bind {A B : Type} (m : St A) (k : A -> St B) : St B :=
  fun s => let (a, s') := m s in k a s'.

Notation "x <- m ;; k" := (bind m (fun x => k))
  (at level 61, m at next level, right associativity).

Definition gets {A : Type} (f : ReadWriteTransaction -> A) : St A :=
  fun s => (f (tx s), s).

Definition modify_tx (f : ReadWriteTransaction -> ReadWriteTransaction) : St unit :=
  fun s => (tt, {| tx := f (tx s); trace := trace s |}).

Definition set_session (ms : ManagedSession) (t : ReadWriteTransaction) : ReadWriteTransaction :=
  {| base_tx := {| session := ms;
                   sequence_number := sequence_number (base_tx t);
                   transaction_selector := transaction_selector (base_tx t) |};
     tx_id := tx_id t; wb := wb t |}.

Definition set_sequence_number (n : Z) (t : ReadWriteTransaction) : ReadWriteTransaction :=
  {| base_tx := {| session := session (base_tx t);
                   sequence_number := n;
                   transaction_selector := transaction_selector (base_tx t) |};
     tx_id := tx_id t; wb := wb t |}.

Definition set_wb (w : list Mutation) (t : ReadWriteTransaction) : ReadWriteTransaction :=
  {| base_tx := base_tx t; tx_id := tx_id t; wb := w |}.

(** [Transaction::get_session_name] *)
Definition get_session_name : St string :=
  gets (fun t => name (ms_session (session (base_tx t)))).

(** [self.sequence_number.fetch_add(1, Ordering::Relaxed)]: returns the
    old value and stores the wrapped successor. *)
Definition fetch_add_sequence_number : St Z :=
  fun s =>
    let c := sequence_number (base_tx (tx s)) in
    (c, {| tx := set_sequence_number (wrap_i64 (c + 1)) (tx s); trace := trace s |}).

(** Sending a request through [session.spanner_client]. *)
Definition spanner_rpc {Rq A : Type} (wrap : Rq -> Request)
  (stub : list Event -> Rq -> Result A Status) (rq : Rq) : St (Result A Status) :=
  fun s => (stub (trace s) rq, {| tx := tx s; trace := trace s ++ [EvRpc (wrap rq)] |}).

(** [extract_row_count] (lines 358-369). *)
Definition extract_row_count (rs : option ResultSetStats) : Z :=
  match rs with
  | Some o =>
      match row_count o with
      | Some (RowCountExact v) => v
      | Some (RowCountLowerBound v) => v
      | None => 0%Z
      end
  | None => 0%Z
  end.

Section SessionCalls.

Variable srv : Server.
Variable invalidates : Status -> bool.

(** [session.invalidate_if_needed(result)] on the transaction's session. *)
Definition session_invalidate_if_needed {A : Type} (r : Result A Status)
  : St (Result A Status) :=
  fun s =>
    let (ms, r') := invalidate_if_needed invalidates (session (base_tx (tx s))) r in
    (r', {| tx := set_session ms (tx s); trace := trace s ++ [EvReport (outcome r)] |}).

(** The free function [commit] (lines 334-356), on the session of the
    open transaction ([self.as_mut_session()]). *)
Definition commit_request (session_name : string) (ms : list Mutation)
  (t : CommitTransaction) (commit_options : CommitOptions) : CommitRequest :=
  {| cr_session := session_name;
     cr_mutations := ms;
     cr_transaction := Some t;
     cr_request_options := create_request_options (co_priority (call_options commit_options));
     cr_return_commit_stats := return_commit_stats commit_options |}.

Definition commit (ms : list Mutation) (t : CommitTransaction)
  (commit_options : CommitOptions) : St (Result CommitResponse Status) :=
  session_name <- get_session_name ;;
  let request := commit_request session_name ms t commit_options in
  result <- spanner_rpc RqCommit (srv_commit srv) request ;;
  response <- session_invalidate_if_needed result ;;
  ret (match response with
       | Ok r => Ok r
       | Err s => Err s
       end).

End SessionCalls.

Module ReadWriteTransaction.
Section Core.

Variable srv : Server.
Variable invalidates : Status -> bool.

(** [ReadWriteTransaction::begin_internal] (lines 146-181): the request,
    then the call and its report, with an explicit trace. *)
Definition begin_request (session : ManagedSession) (mode : Mode) (options : CallOptions)
  : BeginTransactionRequest :=
  {| bt_session := name (ms_session session);
     bt_options := Some {| mode := Some mode |};
     bt_request_options := create_request_options (co_priority options) |}.

Definition begin_internal (session : ManagedSession) (mode : Mode) (options : CallOptions)
  (tr : list Event) : Result ReadWriteTransaction BeginError * list Event :=
  let request := begin_request session mode options in
  let result := srv_begin_transaction srv tr request in
  let tr := tr ++ [EvRpc (RqBeginTransaction request)] in
  let (session, response) := invalidate_if_needed invalidates session result in
  let tr := tr ++ [EvReport (outcome result)] in
  match response with
  | Err err => (Err {| be_status := err; be_session := session |}, tr)
  | Ok t =>
      (Ok {| base_tx := {| session := session;
                           sequence_number := 0%Z;
                           transaction_selector := {| selector := Some (Selector_Id (tx_pb_id t)) |} |};
             tx_id := tx_pb_id t;
             wb := [] |}, tr)
  end.

(** [ReadWriteTransaction::begin] (lines 122-132). *)
Definition begin (session : ManagedSession) (options : CallOptions) (tr : list Event)
  : Result ReadWriteTransaction BeginError * list Event :=
  begin_internal session ReadWrite options tr.


(** [ReadWriteTransaction::buffer_write] (lines 183-185). *)
Definition buffer_write (ms : list Mutation) : St unit :=
  modify_tx (fun t => set_wb (wb t ++ ms) t).

(** The [ExecuteSqlRequest] built by [update] (lines 197-211). *)
Definition update_request (session_name : string) (sel : TransactionSelector)
  (stmt : Statement) (opt : QueryOptions) (seqno : Z) : ExecuteSqlRequest :=
  {| es_session := session_name;
     es_transaction := Some sel;
     es_sql := sql stmt;
     es_params := params stmt;
     es_param_types := param_types stmt;
     es_query_mode := qo_mode opt;
     es_seqno := seqno;
     es_request_options := create_request_options (co_priority (qo_call_options opt)) |}.

(** [ReadWriteTransaction::update] (lines 187-220). *)
Definition update (stmt : Statement) (options : option QueryOptions) : St (Result Z Status) :=
  let opt := match options with
             | Some o => o
             | None => QueryOptions_default
             end in
  session_name <- get_session_name ;;
  sel <- gets (fun t => transaction_selector (base_tx t)) ;;
  seqno <- fetch_add_sequence_number ;;
  let request := update_request session_name sel stmt opt seqno in
  result <- spanner_rpc RqExecuteSql (srv_execute_sql srv) request ;;
  response <- session_invalidate_if_needed invalidates result ;;
  ret (match response with
       | Ok r => Ok (extract_row_count (rs_stats r))
       | Err e => Err e
       end).

Definition to_batch_statement (x : Statement) : BatchStatement :=
  {| bs_sql := sql x; bs_params := params x; bs_param_types := param_types x |}.

(** The [ExecuteBatchDmlRequest] built by [batch_update] (lines 232-245). *)
Definition batch_update_request (session_name : string) (sel : TransactionSelector)
  (stmt : list Statement) (opt : QueryOptions) (seqno : Z) : ExecuteBatchDmlRequest :=
  {| eb_session := session_name;
     eb_transaction := Some sel;
     eb_seqno := seqno;
     eb_request_options := create_request_options (co_priority (qo_call_options opt));
     eb_statements := map to_batch_statement stmt |}.

(** [ReadWriteTransaction::batch_update] (lines 222-259). *)
Definition batch_update (stmt : list Statement) (options : option QueryOptions)
  : St (Result (list Z) Status) :=
  let opt := match options with
             | Some o => o
             | None => QueryOptions_default
             end in
  session_name <- get_session_name ;;
  sel <- gets (fun t => transaction_selector (base_tx t)) ;;
  seqno <- fetch_add_sequence_number ;;
  let request := batch_update_request session_name sel stmt opt seqno in
  result <- spanner_rpc RqExecuteBatchDml (srv_execute_batch_dml srv) request ;;
  response <- session_invalidate_if_needed invalidates result ;;
  ret (match response with
       | Ok r => Ok (map (fun x => extract_row_count (rs_stats x)) (result_sets r))
       | Err e => Err e
       end).

(** [ReadWriteTransaction::commit] (lines 309-317). *)
Definition commit (options : CommitOptions) : St (Result CommitResponse Status) :=
  tx_id <- gets tx_id ;;
  mutations <- gets wb ;;
  commit srv invalidates mutations (TransactionId tx_id) options.

(** [ReadWriteTransaction::rollback] (lines 319-331). *)
Definition rollback : St (Result unit Status) :=
  session_name <- get_session_name ;;
  tx_id <- gets tx_id ;;
  let request := {| rb_transaction_id := tx_id; rb_session := session_name |} in
  result <- spanner_rpc RqRollback (srv_rollback srv) request ;;
  response <- session_invalidate_if_needed invalidates result ;;
  ret (match response with
       | Ok r => Ok r
       | Err e => Err e
       end).

(** [ReadWriteTransaction::finish] (lines 261-307).  The rollback's own
    result is dropped, as the source does not inspect it. *)
Definition finish {T E : Type} `{AsTonicStatus E} `{FromStatus E}
  (result : Result T E) (options : option CommitOptions)
  : St (Result (option Timestamp * T) E) :=
  let opt := match options with
             | Some o => o
             | None => CommitOptions_default
             end in
  match result with
  | Ok s =>
      c <- commit opt ;;
      ret (match c with
           | Ok c => Ok (commit_timestamp c, s)
           | Err e => Err (from_status e)
           end)
  | Err err =>
      match as_tonic_status err with
      | None =>
          _ <- rollback ;;
          ret (Err err)
      | Some status =>
          match code status with
          | Code.Aborted => ret (Err err)
          | Code.NotFound => ret (Err err)
          | _ =>
              _ <- rollback ;;
              ret (Err err)
          end
      end
  end.

End Core.
End ReadWriteTransaction.

(* ------------------------------------------------------------------ *)
(** ** Call sequences on one transaction *)

(** A caller's call on an open transaction; results are not inspected, so
    a caller carries on after a failed statement. *)
Inductive Op : Type :=
| OpUpdate (stmt : Statement) (options : option QueryOptions)
| OpBatchUpdate (stmts : list Statement) (options : option QueryOptions)
| OpBufferWrite (ms : list Mutation).

Section Calls.

Variable srv : Server.
Variable invalidates : Status -> bool.

Definition run_op (op : Op) : St unit :=
  match op with
  | OpUpdate stmt o => _ <- ReadWriteTransaction.update srv invalidates stmt o ;; ret tt
  | OpBatchUpdate stmts o => _ <- ReadWriteTransaction.batch_update srv invalidates stmts o ;; ret tt
  | OpBufferWrite ms => ReadWriteTransaction.buffer_write ms
  end.

Fixpoint run_ops (ops : list Op) : St unit :=
  match ops with
  | [] => ret tt
  | op :: rest => _ <- run_op op ;; run_ops rest
  end.

End Calls.

Definition is_mutating (op : Op) : bool :=
  match op with
  | OpUpdate _ _ | OpBatchUpdate _ _ => true
  | OpBufferWrite _ => false
  end.

(** Number of mutating calls in a call sequence. *)
Definition mutating_calls (ops : list Op) : nat := List.length (filter is_mutating ops).

(** The mutations handed to [buffer_write], in call order. *)
Definition buffered_mutations (ops : list Op) : list Mutation :=
  flat_map (fun op => match op with OpBufferWrite ms => ms | _ => [] end) ops.

(** The sequence numbers seen on the wire, in order. *)
Definition seqnos_of_trace (tr : list Event) : list Z :=
  flat_map (fun e => match e with
                     | EvRpc (RqExecuteSql r) => [es_seqno r]
                     | EvRpc (RqExecuteBatchDml r) => [eb_seqno r]
                     | _ => []
                     end) tr.

(** The requests carrying mutations. *)
Definition commit_requests (tr : list Event) : list CommitRequest :=
  flat_map (fun e => match e with
                     | EvRpc (RqCommit r) => [r]
                     | _ => []
                     end) tr.

Definition is_rpc (e : Event) : bool :=
  match e with
  | EvRpc _ => true
  | EvReport _ => false
  end.

(* ------------------------------------------------------------------ *)
(** ** Concrete inputs *)

Open Scope string_scope.

Definition tx1 : bytes := [Byte.x54; Byte.x58; Byte.x31].

Definition ts0 : Timestamp := {| seconds := 1700000000; nanos := 0 |}.

Definition session0 : ManagedSession :=
  {| ms_id := 7; ms_session := {| name := "projects/p/instances/i/databases/d/sessions/s0" |};
     ms_valid := true |}.

Definition m1 : Mutation := {| m_op := Insert; m_table := "Singers"; m_columns := ["SingerId"] |}.
Definition m2 : Mutation := {| m_op := Update; m_table := "Albums"; m_columns := ["AlbumId"] |}.

Definition stmt0 : Statement :=
  {| sql := "UPDATE Singers SET Name = 'x' WHERE SingerId = 1"; params := []; param_types := [] |}.

Definition status_of (c : Code.t) : Status := {| code := c; message := "" |}.

(** A server answering every call successfully: begin with id "TX1",
    exact row count 3, commit at [ts0]. *)
Definition srv_ok : Server :=
  {| srv_begin_transaction := fun _ _ => Ok {| tx_pb_id := tx1 |};
     srv_execute_sql := fun _ _ => Ok {| rs_stats := Some {| row_count := Some (RowCountExact 3) |} |};
     srv_execute_batch_dml := fun _ _ =>
       Ok {| result_sets := [{| rs_stats := Some {| row_count := Some (RowCountExact 1) |} |};
                             {| rs_stats := None |}];
             ebr_status := None |};
     srv_commit := fun _ _ => Ok {| commit_timestamp := Some ts0; commit_stats := None |};
     srv_rollback := fun _ _ => Ok tt |}.

(** A server failing every call with [c]. *)
Definition srv_fail (c : Code.t) : Server :=
  {| srv_begin_transaction := fun _ _ => Err (status_of c);
     srv_execute_sql := fun _ _ => Err (status_of c);
     srv_execute_batch_dml := fun _ _ => Err (status_of c);
     srv_commit := fun _ _ => Err (status_of c);
     srv_rollback := fun _ _ => Err (status_of c) |}.

(** A server that opens transactions but fails every statement with
    [UNAVAILABLE]. *)
Definition srv_flaky : Server :=
  {| srv_begin_transaction := fun _ _ => Ok {| tx_pb_id := tx1 |};
     srv_execute_sql := fun _ _ => Err (status_of Code.Unavailable);
     srv_execute_batch_dml := fun _ _ => Err (status_of Code.Unavailable);
     srv_commit := fun _ _ => Ok {| commit_timestamp := Some ts0; commit_stats := None |};
     srv_rollback := fun _ _ => Ok tt |}.


(** Sessions are invalidated on [NOT_FOUND]. *)
Definition inv_not_found (s : Status) : bool :=
  match code s with
  | Code.NotFound => true
  | _ => false
  end.

Close Scope string_scope.

(** The transaction opened by [srv_ok] on [session0]. *)
Definition tx_open : ReadWriteTransaction :=
  {| base_tx := {| session := session0; sequence_number := 0;
                   transaction_selector := {| selector := Some (Selector_Id tx1) |} |};
     tx_id := tx1; wb := [] |}.

Definition st_open : TxSt := {| tx := tx_open; trace := [] |}.

(** An application error type that may or may not carry a status. *)
Inductive AppError : Type :=
| AppStatus (s : Status)
| AppOther (msg : string).

#[export] Instance AppError_AsTonicStatus : AsTonicStatus AppError :=
  fun e => match e with AppStatus s => Some s | AppOther _ => None end.
#[export] Instance AppError_FromStatus : FromStatus AppError := AppStatus.

(** Shorthands for the open transaction of a state. *)
Definition session_of (s : TxSt) : ManagedSession := session (base_tx (tx s)).

Definition session_name_of (s : TxSt) : string := name (ms_session (session_of s)).

Definition query_options_or_default (options : option QueryOptions) : QueryOptions :=
  match options with
  | Some o => o
  | None => QueryOptions_default
  end.

Definition commit_options_or_default (options : option CommitOptions) : CommitOptions :=
  match options with
  | Some o => o
  | None => CommitOptions_default
  end.

(** The session after [invalidate_if_needed] has seen [r]. *)
Definition reported_session {A : Type} (invalidates : Status -> bool)
  (ms : ManagedSession) (r : Result A Status) : ManagedSession :=
  fst (invalidate_if_needed invalidates ms r).

(** The trace left by [begin] on [srv_ok], and the open transaction. *)
Definition tr_begin : list Event :=
  snd (ReadWriteTransaction.begin srv_ok inv_not_found session0 CallOptions_default []).

Definition st_begun : TxSt := {| tx := tx_open; trace := tr_begin |}.

Definition ops_demo : list Op :=
  [OpBufferWrite [m1]; OpUpdate stmt0 None; OpBatchUpdate [stmt0; stmt0] None;
   OpBufferWrite [m2]].

(** An event a statement call may leave: an execute request carrying the
    transaction selector [sel] and the session name [sname], or a report. *)
Definition statement_event (sel : TransactionSelector) (sname : string) (e : Event) : Prop :=
  match e with
  | EvRpc (RqExecuteSql r) => es_transaction r = Some sel /\ es_session r = sname
  | EvRpc (RqExecuteBatchDml r) => eb_transaction r = Some sel /\ eb_session r = sname
  | EvRpc _ => False
  | EvReport _ => True
  end.

Example begin_ok_example :
  ReadWriteTransaction.begin srv_ok inv_not_found session0 CallOptions_default []
  = (Ok tx_open,
     [EvRpc (RqBeginTransaction (ReadWriteTransaction.begin_request session0 ReadWrite CallOptions_default));
      EvReport None]).
Proof. reflexivity. Qed.

Example update_example :
  fst (ReadWriteTransaction.update srv_ok inv_not_found stmt0 None st_open) = Ok 3%Z.
Proof. reflexivity. Qed.

Example scenario_example :
  let s1 := snd (run_ops srv_ok inv_not_found [OpBufferWrite [m1; m2]; OpUpdate stmt0 None] st_open) in
  let (r, s2) := ReadWriteTransaction.finish srv_ok inv_not_found (@Ok nat Status 1) None s1 in
  r = Ok (Some ts0, 1) /\
  map cr_mutations (commit_requests (trace s2)) = [[m1; m2]] /\
  seqnos_of_trace (trace s2) = [0%Z].
Proof. vm_compute. auto. Qed.

(* ------------------------------------------------------------------ *)
(** ** One call at a time *)

Section OneCall.

Variable srv : Server.
Variable invalidates : Status -> bool.

Lemma app_two {A : Type} (l : list A) (x y : A) : (l ++ [x]) ++ [y] = l ++ [x; y].
Proof. rewrite <- app_assoc. reflexivity. Qed.

Lemma update_step (stmt : Statement) (options : option QueryOptions) (s : TxSt) :
  let c := sequence_number (base_tx (tx s)) in
  let rq := ReadWriteTransaction.update_request (session_name_of s)
              (transaction_selector (base_tx (tx s))) stmt
              (query_options_or_default options) c in
  let raw := srv_execute_sql srv (trace s) rq in
  ReadWriteTransaction.update srv invalidates stmt options s =
  (match raw with
   | Ok r => Ok (extract_row_count (rs_stats r))
   | Err e => Err e
   end,
   {| tx := set_session (reported_session invalidates (session_of s) raw)
              (set_sequence_number (wrap_i64 (c + 1)) (tx s));
      trace := trace s ++ [EvRpc (RqExecuteSql rq); EvReport (outcome raw)] |}).
Proof.
  cbv zeta. unfold ReadWriteTransaction.update, reported_session.
  destruct s as [t tr]; cbn.
  destruct (srv_execute_sql _ _ _); cbn; rewrite app_two; reflexivity.
Qed.

Lemma batch_update_step (stmts : list Statement) (options : option QueryOptions) (s : TxSt) :
  let c := sequence_number (base_tx (tx s)) in
  let rq := ReadWriteTransaction.batch_update_request (session_name_of s)
              (transaction_selector (base_tx (tx s))) stmts
              (query_options_or_default options) c in
  let raw := srv_execute_batch_dml srv (trace s) rq in
  ReadWriteTransaction.batch_update srv invalidates stmts options s =
  (match raw with
   | Ok r => Ok (map (fun x => extract_row_count (rs_stats x)) (result_sets r))
   | Err e => Err e
   end,
   {| tx := set_session (reported_session invalidates (session_of s) raw)
              (set_sequence_number (wrap_i64 (c + 1)) (tx s));
      trace := trace s ++ [EvRpc (RqExecuteBatchDml rq); EvReport (outcome raw)] |}).
Proof.
  cbv zeta. unfold ReadWriteTransaction.batch_update, reported_session.
  destruct s as [t tr]; cbn.
  destruct (srv_execute_batch_dml _ _ _); cbn; rewrite app_two; reflexivity.
Qed.

Lemma commit_step (ms : list Mutation) (t : CommitTransaction) (options : CommitOptions) (s : TxSt) :
  let rq := commit_request (session_name_of s) ms t options in
  let raw := srv_commit srv (trace s) rq in
  commit srv invalidates ms t options s =
  (raw,
   {| tx := set_session (reported_session invalidates (session_of s) raw) (tx s);
      trace := trace s ++ [EvRpc (RqCommit rq); EvReport (outcome raw)] |}).
Proof.
  cbv zeta. unfold commit, reported_session.
  destruct s as [tx0 tr]; cbn.
  destruct (srv_commit _ _ _); cbn; rewrite app_two; reflexivity.
Qed.

Lemma commit_method_step (options : CommitOptions) (s : TxSt) :
  let rq := commit_request (session_name_of s) (wb (tx s)) (TransactionId (tx_id (tx s))) options in
  let raw := srv_commit srv (trace s) rq in
  ReadWriteTransaction.commit srv invalidates options s =
  (raw,
   {| tx := set_session (reported_session invalidates (session_of s) raw) (tx s);
      trace := trace s ++ [EvRpc (RqCommit rq); EvReport (outcome raw)] |}).
Proof.
  cbv zeta. unfold ReadWriteTransaction.commit, commit, reported_session.
  destruct s as [tx0 tr]; cbn.
  destruct (srv_commit _ _ _); cbn; rewrite app_two; reflexivity.
Qed.

Lemma rollback_step (s : TxSt) :
  let rq := {| rb_transaction_id := tx_id (tx s); rb_session := session_name_of s |} in
  let raw := srv_rollback srv (trace s) rq in
  ReadWriteTransaction.rollback srv invalidates s =
  (raw,
   {| tx := set_session (reported_session invalidates (session_of s) raw) (tx s);
      trace := trace s ++ [EvRpc (RqRollback rq); EvReport (outcome raw)] |}).
Proof.
  cbv zeta. unfold ReadWriteTransaction.rollback, reported_session.
  destruct s as [t tr]; cbn.
  destruct (srv_rollback _ _ _); cbn; rewrite app_two; reflexivity.
Qed.

End OneCall.

Lemma reported_session_same_handle {A : Type} (invalidates : Status -> bool)
  (ms : ManagedSession) (r : Result A Status) :
  ms_id (reported_session invalidates ms r) = ms_id ms /\
  ms_session (reported_session invalidates ms r) = ms_session ms.
Proof.
  unfold reported_session, invalidate_if_needed.
  destruct r as [v | e]; [| destruct (invalidates e)]; cbn; auto.
Qed.

(* ------------------------------------------------------------------ *)
(** ** The finalisation policy *)

(** C1: a business-logic failure whose status is ABORTED or NOT_FOUND is
    returned by [finish] as it is, and the transaction and the trace are
    left untouched: neither a rollback nor a commit RPC is issued. *)
Theorem finish_aborted_or_not_found_no_rpc
  (srv : Server) (invalidates : Status -> bool) {T E : Type}
  `{AsTonicStatus E} `{FromStatus E}
  (err : E) (st : Status) (options : option CommitOptions) (s : TxSt)
  (Hst : as_tonic_status err = Some st)
  (Hcode : code st = Code.Aborted \/ code st = Code.NotFound) :
  ReadWriteTransaction.finish srv invalidates (@Err T E err) options s = (Err err, s).
Proof.
  unfold ReadWriteTransaction.finish. rewrite Hst.
  destruct Hcode as [Hc | Hc]; rewrite Hc; reflexivity.
Qed.

Lemma finish_aborted_or_not_found_no_rpc_witness :
  ReadWriteTransaction.finish srv_ok inv_not_found
    (@Err nat Status (status_of Code.Aborted)) None st_open
  = (Err (status_of Code.Aborted), st_open).
Proof.
  apply (finish_aborted_or_not_found_no_rpc srv_ok inv_not_found
           (status_of Code.Aborted) (status_of Code.Aborted) None st_open).
  - reflexivity.
  - left. reflexivity.
Defined.

(** C2: on a business-logic success [finish] issues exactly one commit
    RPC, carrying the write buffer and the transaction id, and nothing
    else; it returns (commit timestamp, value) when the commit succeeds and
    the commit error, converted into [E], when it fails. *)
Theorem finish_success_commits_once
  (srv : Server) (invalidates : Status -> bool) {T E : Type}
  `{AsTonicStatus E} `{FromStatus E}
  (v : T) (options : option CommitOptions) (s : TxSt) :
  let rq := commit_request (session_name_of s) (wb (tx s)) (TransactionId (tx_id (tx s)))
              (commit_options_or_default options) in
  let raw := srv_commit srv (trace s) rq in
  let (r, s') := ReadWriteTransaction.finish srv invalidates (@Ok T E v) options s in
  trace s' = trace s ++ [EvRpc (RqCommit rq); EvReport (outcome raw)] /\
  r = match raw with
      | Ok c => Ok (commit_timestamp c, v)
      | Err e => Err (from_status e)
      end.
Proof.
  cbv zeta. unfold ReadWriteTransaction.finish, bind.
  rewrite commit_method_step. cbn.
  destruct (srv_commit _ _ _); split; reflexivity.
Qed.

(** C3: a business-logic failure with no status, or with a status other
    than ABORTED and NOT_FOUND, makes [finish] issue one rollback RPC and
    return the original failure, whatever the rollback answers. *)
Theorem finish_failure_rolls_back
  (srv : Server) (invalidates : Status -> bool) {T E : Type}
  `{AsTonicStatus E} `{FromStatus E}
  (err : E) (options : option CommitOptions) (s : TxSt)
  (Hst : as_tonic_status err = None \/
         exists st, as_tonic_status err = Some st /\
                    code st <> Code.Aborted /\ code st <> Code.NotFound) :
  let rq := {| rb_transaction_id := tx_id (tx s); rb_session := session_name_of s |} in
  let (r, s') := ReadWriteTransaction.finish srv invalidates (@Err T E err) options s in
  r = Err err /\
  trace s' = trace s ++ [EvRpc (RqRollback rq); EvReport (outcome (srv_rollback srv (trace s) rq))].
Proof.
  cbv zeta. unfold ReadWriteTransaction.finish.
  destruct Hst as [Hn | (st & Hs & Ha & Hnf)].
  - rewrite Hn. unfold bind. rewrite rollback_step. cbn. split; reflexivity.
  - rewrite Hs.
    destruct (code st); try congruence;
      unfold bind; rewrite rollback_step; cbn; split; reflexivity.
Qed.

Lemma finish_failure_rolls_back_witness :
  (as_tonic_status (AppOther "deadline exceeded") = None \/
   exists st, as_tonic_status (AppOther "deadline exceeded") = Some st /\
              code st <> Code.Aborted /\ code st <> Code.NotFound) /\
  let rq := {| rb_transaction_id := tx_id (tx st_open); rb_session := session_name_of st_open |} in
  let (r, s') := ReadWriteTransaction.finish (srv_fail Code.Internal) inv_not_found
                   (@Err nat AppError (AppOther "deadline exceeded")) None st_open in
  r = Err (AppOther "deadline exceeded") /\
  trace s' = trace st_open ++
    [EvRpc (RqRollback rq);
     EvReport (outcome (srv_rollback (srv_fail Code.Internal) (trace st_open) rq))].
Proof.
  split.
  - left. reflexivity.
  - apply (finish_failure_rolls_back (srv_fail Code.Internal) inv_not_found
             (AppOther "deadline exceeded") None st_open).
    left. reflexivity.
Defined.

(* ------------------------------------------------------------------ *)
(** ** Row counts *)

(** C6: [extract_row_count] returns an exact row count, else a lower
    bound, else 0; [update] returns it for the result set it receives, and
    [batch_update] applies it to each result set, keeping their order. *)
Theorem row_count_extraction (srv : Server) (invalidates : Status -> bool) :
  (forall v, extract_row_count (Some {| row_count := Some (RowCountExact v) |}) = v) /\
  (forall v, extract_row_count (Some {| row_count := Some (RowCountLowerBound v) |}) = v) /\
  extract_row_count (Some {| row_count := None |}) = 0%Z /\
  extract_row_count None = 0%Z /\
  (forall stmt options s,
     let rq := ReadWriteTransaction.update_request (session_name_of s)
                 (transaction_selector (base_tx (tx s))) stmt
                 (query_options_or_default options) (sequence_number (base_tx (tx s))) in
     fst (ReadWriteTransaction.update srv invalidates stmt options s) =
     match srv_execute_sql srv (trace s) rq with
     | Ok r => Ok (extract_row_count (rs_stats r))
     | Err e => Err e
     end) /\
  (forall stmts options s,
     let rq := ReadWriteTransaction.batch_update_request (session_name_of s)
                 (transaction_selector (base_tx (tx s))) stmts
                 (query_options_or_default options) (sequence_number (base_tx (tx s))) in
     fst (ReadWriteTransaction.batch_update srv invalidates stmts options s) =
     match srv_execute_batch_dml srv (trace s) rq with
     | Ok r => Ok (map (fun x => extract_row_count (rs_stats x)) (result_sets r))
     | Err e => Err e
     end).
Proof.
  repeat split.
  - intros stmt options s. cbv zeta. rewrite update_step. reflexivity.
  - intros stmts options s. cbv zeta. rewrite batch_update_step. reflexivity.
Qed.

(* ------------------------------------------------------------------ *)
(** ** Beginning a transaction *)

(** C7: when the begin-transaction RPC fails, [begin_internal] (hence
    [begin], at [ReadWrite], and [begin_partitioned_dml], at
    [PartitionedDml]) returns a [BeginError] holding the failure status and
    the session handle that was passed in, with the same identity. *)
Theorem begin_failure_returns_session
  (srv : Server) (invalidates : Status -> bool) (ms : ManagedSession) (mode : Mode)
  (options : CallOptions) (tr : list Event) (e : Status)
  (Hfail : srv_begin_transaction srv tr (ReadWriteTransaction.begin_request ms mode options) = Err e) :
  exists ms',
    fst (ReadWriteTransaction.begin_internal srv invalidates ms mode options tr)
    = Err {| be_status := e; be_session := ms' |} /\
    ms_id ms' = ms_id ms /\ ms_session ms' = ms_session ms.
Proof.
  exists (reported_session invalidates ms (@Err TransactionPb Status e)).
  split.
  - unfold ReadWriteTransaction.begin_internal. rewrite Hfail.
    unfold reported_session. cbn. destruct (invalidates e); reflexivity.
  - apply reported_session_same_handle.
Qed.

Lemma begin_failure_returns_session_witness :
  exists ms',
    fst (ReadWriteTransaction.begin_internal (srv_fail Code.NotFound) inv_not_found session0
           PartitionedDml CallOptions_default [])
    = Err {| be_status := status_of Code.NotFound; be_session := ms' |} /\
    ms_id ms' = ms_id session0 /\ ms_session ms' = ms_session session0.
Proof.
  apply (begin_failure_returns_session (srv_fail Code.NotFound) inv_not_found session0
           PartitionedDml CallOptions_default [] (status_of Code.NotFound)).
  reflexivity.
Defined.

(* ------------------------------------------------------------------ *)
(** ** Every RPC result goes through the session *)

(** C8: each of the five RPCs (begin, execute_sql, execute_batch_dml,
    commit, rollback) is followed at once by handing its raw result to
    [invalidate_if_needed]; the session kept afterwards is the one that
    call leaves, and the result returned carries the same outcome. *)
Theorem every_rpc_result_reported (srv : Server) (invalidates : Status -> bool) :
  (forall ms mode options tr,
     let rq := ReadWriteTransaction.begin_request ms mode options in
     let raw := srv_begin_transaction srv tr rq in
     snd (ReadWriteTransaction.begin_internal srv invalidates ms mode options tr)
       = tr ++ [EvRpc (RqBeginTransaction rq); EvReport (outcome raw)] /\
     match fst (ReadWriteTransaction.begin_internal srv invalidates ms mode options tr) with
     | Ok t => outcome raw = None /\ session (base_tx t) = reported_session invalidates ms raw
     | Err be => outcome raw = Some (be_status be) /\
                 be_session be = reported_session invalidates ms raw
     end) /\
  (forall stmt options s,
     let rq := ReadWriteTransaction.update_request (session_name_of s)
                 (transaction_selector (base_tx (tx s))) stmt
                 (query_options_or_default options) (sequence_number (base_tx (tx s))) in
     let raw := srv_execute_sql srv (trace s) rq in
     let (r, s') := ReadWriteTransaction.update srv invalidates stmt options s in
     trace s' = trace s ++ [EvRpc (RqExecuteSql rq); EvReport (outcome raw)] /\
     session_of s' = reported_session invalidates (session_of s) raw /\
     outcome r = outcome raw) /\
  (forall stmts options s,
     let rq := ReadWriteTransaction.batch_update_request (session_name_of s)
                 (transaction_selector (base_tx (tx s))) stmts
                 (query_options_or_default options) (sequence_number (base_tx (tx s))) in
     let raw := srv_execute_batch_dml srv (trace s) rq in
     let (r, s') := ReadWriteTransaction.batch_update srv invalidates stmts options s in
     trace s' = trace s ++ [EvRpc (RqExecuteBatchDml rq); EvReport (outcome raw)] /\
     session_of s' = reported_session invalidates (session_of s) raw /\
     outcome r = outcome raw) /\
  (forall ms t options s,
     let rq := commit_request (session_name_of s) ms t options in
     let raw := srv_commit srv (trace s) rq in
     let (r, s') := commit srv invalidates ms t options s in
     trace s' = trace s ++ [EvRpc (RqCommit rq); EvReport (outcome raw)] /\
     session_of s' = reported_session invalidates (session_of s) raw /\
     r = raw) /\
  (forall options s,
     let rq := commit_request (session_name_of s) (wb (tx s)) (TransactionId (tx_id (tx s))) options in
     let raw := srv_commit srv (trace s) rq in
     let (r, s') := ReadWriteTransaction.commit srv invalidates options s in
     trace s' = trace s ++ [EvRpc (RqCommit rq); EvReport (outcome raw)] /\
     session_of s' = reported_session invalidates (session_of s) raw /\
     r = raw) /\
  (forall s,
     let rq := {| rb_transaction_id := tx_id (tx s); rb_session := session_name_of s |} in
     let raw := srv_rollback srv (trace s) rq in
     let (r, s') := ReadWriteTransaction.rollback srv invalidates s in
     trace s' = trace s ++ [EvRpc (RqRollback rq); EvReport (outcome raw)] /\
     session_of s' = reported_session invalidates (session_of s) raw /\
     r = raw).
Proof.
  split; [| split; [| split; [| split; [| split]]]]; cbv zeta.
  - intros ms mode options tr.
    unfold ReadWriteTransaction.begin_internal, reported_session.
    destruct (srv_begin_transaction _ _ _) as [t | e]; cbn.
    + rewrite app_two. auto.
    + rewrite app_two. destruct (invalidates e); auto.
  - intros stmt options s. rewrite update_step. cbn.
    destruct (srv_execute_sql _ _ _); auto.
  - intros stmts options s. rewrite batch_update_step. cbn.
    destruct (srv_execute_batch_dml _ _ _); auto.
  - intros ms t options s. rewrite commit_step. cbn. auto.
  - intros options s. rewrite commit_method_step. cbn. auto.
  - intros s. rewrite rollback_step. cbn. auto.
Qed.

(* ------------------------------------------------------------------ *)
(** ** Finalisation leaves the buffer and the id in place *)

Lemma finish_state (srv : Server) (invalidates : Status -> bool) {T E : Type}
  `{AsTonicStatus E} `{FromStatus E}
  (result : Result T E) (options : option CommitOptions) (s : TxSt) :
  let s' := snd (ReadWriteTransaction.finish srv invalidates result options s) in
  wb (tx s') = wb (tx s) /\ tx_id (tx s') = tx_id (tx s).
Proof.
  cbv zeta. unfold ReadWriteTransaction.finish.
  destruct result as [v | err].
  - unfold bind. rewrite commit_method_step. cbn. auto.
  - destruct (as_tonic_status err) as [st |].
    + destruct (code st); unfold bind; try rewrite rollback_step; cbn; auto.
    + unfold bind. rewrite rollback_step. cbn. auto.
Qed.

Lemma finish_ok_step (srv : Server) (invalidates : Status -> bool) {T E : Type}
  `{AsTonicStatus E} `{FromStatus E}
  (v : T) (options : option CommitOptions) (s : TxSt) :
  let rq := commit_request (session_name_of s) (wb (tx s)) (TransactionId (tx_id (tx s)))
              (commit_options_or_default options) in
  let raw := srv_commit srv (trace s) rq in
  ReadWriteTransaction.finish srv invalidates (@Ok T E v) options s =
  (match raw with
   | Ok c => Ok (commit_timestamp c, v)
   | Err e => Err (from_status e)
   end,
   {| tx := set_session (reported_session invalidates (session_of s) raw) (tx s);
      trace := trace s ++ [EvRpc (RqCommit rq); EvReport (outcome raw)] |}).
Proof.
  cbv zeta. unfold ReadWriteTransaction.finish, bind.
  rewrite commit_method_step. reflexivity.
Qed.

Lemma wb_set_session (ms : ManagedSession) (t : ReadWriteTransaction) :
  wb (set_session ms t) = wb t.
Proof. reflexivity. Qed.

Lemma tx_id_set_session (ms : ManagedSession) (t : ReadWriteTransaction) :
  tx_id (set_session ms t) = tx_id t.
Proof. reflexivity. Qed.

Lemma session_name_of_reported {A : Type} (invalidates : Status -> bool) (s : TxSt)
  (r : Result A Status) (tr : list Event) :
  session_name_of {| tx := set_session (reported_session invalidates (session_of s) r) (tx s);
                     trace := tr |} = session_name_of s.
Proof.
  unfold session_name_of at 1, session_of at 1. cbn.
  rewrite (proj2 (reported_session_same_handle invalidates (session_of s) r)).
  reflexivity.
Qed.

Lemma commit_requests_app (l1 l2 : list Event) :
  commit_requests (l1 ++ l2) = commit_requests l1 ++ commit_requests l2.
Proof. unfold commit_requests. apply flat_map_app. Qed.

(** C9: [commit], [rollback] and [finish] leave the write buffer and the
    transaction id as they were, so a second [finish] on the same
    transaction sends a commit request identical to the first one: same
    mutations, same transaction id. *)
Theorem finalization_keeps_buffer_and_id
  (srv : Server) (invalidates : Status -> bool) {T E : Type}
  `{AsTonicStatus E} `{FromStatus E} :
  (forall options s,
     let s' := snd (ReadWriteTransaction.commit srv invalidates options s) in
     wb (tx s') = wb (tx s) /\ tx_id (tx s') = tx_id (tx s)) /\
  (forall s,
     let s' := snd (ReadWriteTransaction.rollback srv invalidates s) in
     wb (tx s') = wb (tx s) /\ tx_id (tx s') = tx_id (tx s)) /\
  (forall (result : Result T E) options s,
     let s' := snd (ReadWriteTransaction.finish srv invalidates result options s) in
     wb (tx s') = wb (tx s) /\ tx_id (tx s') = tx_id (tx s)) /\
  (forall (v1 v2 : T) options s,
     let rq := commit_request (session_name_of s) (wb (tx s)) (TransactionId (tx_id (tx s)))
                 (commit_options_or_default options) in
     let s1 := snd (ReadWriteTransaction.finish srv invalidates (@Ok T E v1) options s) in
     let s2 := snd (ReadWriteTransaction.finish srv invalidates (@Ok T E v2) options s1) in
     commit_requests (trace s2) = commit_requests (trace s) ++ [rq; rq]).
Proof.
  split; [| split; [| split]]; cbv zeta.
  - intros options s. rewrite commit_method_step. cbn. auto.
  - intros s. rewrite rollback_step. cbn. auto.
  - intros result options s. apply finish_state.
  - intros v1 v2 options s.
    rewrite (finish_ok_step srv invalidates v1 options s). cbn [snd].
    rewrite (finish_ok_step srv invalidates v2 options). cbn [snd trace tx].
    rewrite session_name_of_reported, wb_set_session, tx_id_set_session.
    rewrite !commit_requests_app, <- app_assoc. reflexivity.
Qed.

(* ------------------------------------------------------------------ *)
(** ** Call sequences: sequence numbers and the write buffer *)

Open Scope Z_scope.

Lemma wrap_i64_add_l (x y : Z) : wrap_i64 (wrap_i64 x + y) = wrap_i64 (x + y).
Proof.
  unfold wrap_i64.
  replace ((x + 2 ^ 63) mod 2 ^ 64 - 2 ^ 63 + y + 2 ^ 63)
    with ((x + 2 ^ 63) mod 2 ^ 64 + y) by ring.
  replace (x + y + 2 ^ 63) with ((x + 2 ^ 63) + y) by ring.
  rewrite Zplus_mod_idemp_l. reflexivity.
Qed.

Lemma wrap_i64_idem (x : Z) : wrap_i64 (wrap_i64 x) = wrap_i64 x.
Proof.
  pose proof (wrap_i64_add_l x 0) as H. rewrite !Z.add_0_r in H. exact H.
Qed.

Lemma wrap_i64_small (x : Z) : - 2 ^ 63 <= x < 2 ^ 63 -> wrap_i64 x = x.
Proof.
  intros Hx. unfold wrap_i64.
  rewrite Z.mod_small by lia. ring.
Qed.

Lemma wrap_i64_high (x : Z) : 2 ^ 63 <= x < 2 ^ 64 -> wrap_i64 x = x - 2 ^ 64.
Proof.
  intros Hx. unfold wrap_i64.
  replace (x + 2 ^ 63) with ((x - 2 ^ 63) + 1 * 2 ^ 64) by ring.
  rewrite Z_mod_plus_full, Z.mod_small by lia. ring.
Qed.

Lemma wrap_i64_inj (x y : Z) :
  0 <= x < 2 ^ 64 -> 0 <= y < 2 ^ 64 -> wrap_i64 x = wrap_i64 y -> x = y.
Proof.
  intros Hx Hy Heq.
  destruct (Z.lt_ge_cases x (2 ^ 63)); destruct (Z.lt_ge_cases y (2 ^ 63));
    [rewrite !wrap_i64_small in Heq by lia
    | rewrite wrap_i64_small, wrap_i64_high in Heq by lia
    | rewrite wrap_i64_high, wrap_i64_small in Heq by lia
    | rewrite !wrap_i64_high in Heq by lia]; lia.
Qed.

Lemma seqnos_of_trace_app (l1 l2 : list Event) :
  seqnos_of_trace (l1 ++ l2) = seqnos_of_trace l1 ++ seqnos_of_trace l2.
Proof. unfold seqnos_of_trace. apply flat_map_app. Qed.

Lemma run_ops_cons (srv : Server) (invalidates : Status -> bool) (op : Op) (ops : list Op)
  (s : TxSt) :
  snd (run_ops srv invalidates (op :: ops) s)
  = snd (run_ops srv invalidates ops (snd (run_op srv invalidates op s))).
Proof. cbn [run_ops]. unfold bind. destruct (run_op srv invalidates op s). reflexivity. Qed.

Lemma run_op_update (srv : Server) (invalidates : Status -> bool) stmt o (s : TxSt) :
  snd (run_op srv invalidates (OpUpdate stmt o) s)
  = snd (ReadWriteTransaction.update srv invalidates stmt o s).
Proof.
  cbn [run_op]. unfold bind.
  destruct (ReadWriteTransaction.update srv invalidates stmt o s). reflexivity.
Qed.

Lemma run_op_batch_update (srv : Server) (invalidates : Status -> bool) stmts o (s : TxSt) :
  snd (run_op srv invalidates (OpBatchUpdate stmts o) s)
  = snd (ReadWriteTransaction.batch_update srv invalidates stmts o s).
Proof.
  cbn [run_op]. unfold bind.
  destruct (ReadWriteTransaction.batch_update srv invalidates stmts o s). reflexivity.
Qed.

Lemma seqnos_shift (c : Z) (n : nat) :
  wrap_i64 c = c ->
  map (fun k => wrap_i64 (c + Z.of_nat k)) (seq 0 (S n))
  = c :: map (fun k => wrap_i64 (wrap_i64 (c + 1) + Z.of_nat k)) (seq 0 n).
Proof.
  intros Hc. cbn [seq map].
  rewrite Z.add_0_r, Hc. f_equal.
  rewrite <- seq_shift, map_map. apply map_ext. intros k.
  rewrite wrap_i64_add_l. f_equal. lia.
Qed.

(** The effect of a call sequence on an open transaction: the new events
    carry the counter values [c], [c+1], ... (wrapped to [i64]), one per
    mutating call, carry no commit request, and the buffer grows by the
    buffered mutations in call order. *)
Lemma run_ops_effect (srv : Server) (invalidates : Status -> bool) (ops : list Op) :
  forall s,
  wrap_i64 (sequence_number (base_tx (tx s))) = sequence_number (base_tx (tx s)) ->
  let c := sequence_number (base_tx (tx s)) in
  let s' := snd (run_ops srv invalidates ops s) in
  exists tr',
    trace s' = trace s ++ tr' /\
    seqnos_of_trace tr' = map (fun k => wrap_i64 (c + Z.of_nat k)) (seq 0 (mutating_calls ops)) /\
    commit_requests tr' = [] /\
    wb (tx s') = wb (tx s) ++ buffered_mutations ops /\
    tx_id (tx s') = tx_id (tx s).
Proof.
  induction ops as [| op ops IH]; intros s Hc; cbv zeta.
  - exists []. cbn. rewrite !app_nil_r. auto.
  - rewrite run_ops_cons.
    destruct op as [stmt o | stmts o | ms].
    + rewrite run_op_update, update_step. cbn [snd].
      match goal with
      | |- context [snd (run_ops _ _ ops ?s1)] =>
          destruct (IH s1) as (tr'' & Htr & Hseq & Hcr & Hwb & Hid)
      end.
      { cbn. apply wrap_i64_idem. }
      cbn [tx trace base_tx set_session set_sequence_number sequence_number wb tx_id] in *.
      eexists. split; [rewrite Htr, <- app_assoc; reflexivity |].
      split; [| split; [| split]].
      * rewrite seqnos_of_trace_app, Hseq.
        change (mutating_calls (OpUpdate stmt o :: ops)) with (S (mutating_calls ops)).
        rewrite (seqnos_shift _ _ Hc). reflexivity.
      * rewrite commit_requests_app, Hcr. reflexivity.
      * rewrite Hwb. reflexivity.
      * exact Hid.
    + rewrite run_op_batch_update, batch_update_step. cbn [snd].
      match goal with
      | |- context [snd (run_ops _ _ ops ?s1)] =>
          destruct (IH s1) as (tr'' & Htr & Hseq & Hcr & Hwb & Hid)
      end.
      { cbn. apply wrap_i64_idem. }
      cbn [tx trace base_tx set_session set_sequence_number sequence_number wb tx_id] in *.
      eexists. split; [rewrite Htr, <- app_assoc; reflexivity |].
      split; [| split; [| split]].
      * rewrite seqnos_of_trace_app, Hseq.
        change (mutating_calls (OpBatchUpdate stmts o :: ops)) with (S (mutating_calls ops)).
        rewrite (seqnos_shift _ _ Hc). reflexivity.
      * rewrite commit_requests_app, Hcr. reflexivity.
      * rewrite Hwb. reflexivity.
      * exact Hid.
    + cbn [run_op ReadWriteTransaction.buffer_write modify_tx snd].
      destruct (IH {| tx := set_wb (wb (tx s) ++ ms) (tx s); trace := trace s |})
        as (tr'' & Htr & Hseq & Hcr & Hwb & Hid).
      { exact Hc. }
      exists tr''. cbn [tx trace set_wb wb tx_id base_tx] in *.
      split; [exact Htr |]. split; [exact Hseq |]. split; [exact Hcr |].
      split; [rewrite Hwb, <- app_assoc; reflexivity | exact Hid].
Qed.

Lemma begin_internal_ok (srv : Server) (invalidates : Status -> bool) (ms : ManagedSession)
  (mode : Mode) (options : CallOptions) (tr : list Event) (t : ReadWriteTransaction)
  (tr1 : list Event) :
  ReadWriteTransaction.begin_internal srv invalidates ms mode options tr = (Ok t, tr1) ->
  sequence_number (base_tx t) = 0 /\ wb t = [] /\
  exists rq o, tr1 = tr ++ [EvRpc (RqBeginTransaction rq); EvReport o].
Proof.
  unfold ReadWriteTransaction.begin_internal.
  destruct (srv_begin_transaction _ _ _) as [p | e]; cbn;
    [| destruct (invalidates e); cbn]; intros H; inversion H; subst.
  split; [reflexivity |]. split; [reflexivity |].
  do 2 eexists. rewrite app_two. reflexivity.
Qed.

Lemma mutating_calls_repeat_update (stmt : Statement) (o : option QueryOptions) (n : nat) :
  mutating_calls (repeat (OpUpdate stmt o) n) = n.
Proof.
  induction n as [| n IH]; [reflexivity |].
  unfold mutating_calls in *. cbn. rewrite IH. reflexivity.
Qed.

Lemma nth_map_seq (f : nat -> Z) (n i : nat) (d : Z) :
  (i < n)%nat -> nth i (map f (seq 0 n)) d = f i.
Proof.
  intros Hi.
  rewrite (nth_indep _ d (f 0%nat)) by (rewrite length_map, length_seq; exact Hi).
  rewrite map_nth, seq_nth by exact Hi. reflexivity.
Qed.

(** The sequence numbers sent by [n] updates on the transaction opened by
    [srv_ok]. *)
Lemma seqnos_after_begin (n : nat) :
  exists tr',
    trace (snd (run_ops srv_ok inv_not_found (repeat (OpUpdate stmt0 None) n) st_begun))
    = tr_begin ++ tr' /\
    seqnos_of_trace tr' = map (fun k => wrap_i64 (0 + Z.of_nat k)) (seq 0 n).
Proof.
  destruct (run_ops_effect srv_ok inv_not_found (repeat (OpUpdate stmt0 None) n) st_begun)
    as (tr' & Htr & Hseq & _).
  { reflexivity. }
  exists tr'. split; [exact Htr |].
  rewrite Hseq, mutating_calls_repeat_update. reflexivity.
Qed.

(** C4 (as amended): after a successful begin, the [N] mutating calls
    ([update] or [batch_update], one number per call, interleaved with any
    [buffer_write]) send the sequence numbers [0, 1, ..., N-1] in call
    order, for every [N <= 2^63]. *)
Theorem mutating_calls_seqnos_from_zero
  (srv : Server) (invalidates : Status -> bool) (ms : ManagedSession) (mode : Mode)
  (options : CallOptions) (tr : list Event) (t : ReadWriteTransaction) (tr1 : list Event)
  (ops : list Op)
  (Hbegin : ReadWriteTransaction.begin_internal srv invalidates ms mode options tr = (Ok t, tr1))
  (Hbound : Z.of_nat (mutating_calls ops) <= 2 ^ 63) :
  exists tr',
    trace (snd (run_ops srv invalidates ops {| tx := t; trace := tr1 |})) = tr1 ++ tr' /\
    seqnos_of_trace tr' = map Z.of_nat (seq 0 (mutating_calls ops)).
Proof.
  destruct (begin_internal_ok _ _ _ _ _ _ _ _ Hbegin) as (H0 & _).
  destruct (run_ops_effect srv invalidates ops {| tx := t; trace := tr1 |})
    as (tr' & Htr & Hseq & _).
  { cbn [tx]. rewrite H0. reflexivity. }
  exists tr'. split; [exact Htr |].
  rewrite Hseq. cbn [tx]. rewrite H0.
  apply map_ext_in. intros k Hk. apply in_seq in Hk.
  rewrite wrap_i64_small; lia.
Qed.

Lemma mutating_calls_seqnos_from_zero_witness :
  exists tr',
    trace (snd (run_ops srv_ok inv_not_found ops_demo {| tx := tx_open; trace := tr_begin |}))
    = tr_begin ++ tr' /\
    seqnos_of_trace tr' = map Z.of_nat (seq 0 (mutating_calls ops_demo)).
Proof.
  apply (mutating_calls_seqnos_from_zero srv_ok inv_not_found session0 ReadWrite
           CallOptions_default [] tx_open tr_begin ops_demo).
  - reflexivity.
  - vm_compute. discriminate.
Defined.

(** C4 fails as stated: the counter is an [i64] and [fetch_add] wraps, so
    the [2^63 + 1]-th update on a fresh transaction sends [-2^63], not
    [2^63]. *)
Lemma mutating_calls_seqnos_counterexample :
  ~ exists tr',
      trace (snd (run_ops srv_ok inv_not_found
                    (repeat (OpUpdate stmt0 None) (Z.to_nat (2 ^ 63) + 1)) st_begun))
      = tr_begin ++ tr' /\
      seqnos_of_trace tr'
      = map Z.of_nat (seq 0 (mutating_calls (repeat (OpUpdate stmt0 None) (Z.to_nat (2 ^ 63) + 1)))).
Proof.
  assert (Hn : Z.of_nat (Z.to_nat (2 ^ 63)) = 2 ^ 63) by (apply Z2Nat.id; lia).
  revert Hn. generalize (Z.to_nat (2 ^ 63)). intros n Hn.
  intros (tr' & Htr & Hseq).
  destruct (seqnos_after_begin (n + 1)) as (tr2 & Htr2 & Hseq2).
  rewrite Htr in Htr2. apply app_inv_head in Htr2. subst tr2.
  rewrite mutating_calls_repeat_update in Hseq.
  rewrite Hseq in Hseq2.
  apply (f_equal (fun l => nth n l 0)) in Hseq2.
  rewrite !nth_map_seq in Hseq2 by lia.
  rewrite Hn, Z.add_0_l, wrap_i64_high in Hseq2 by lia.
  lia.
Qed.

(** C5: [buffer_write] only appends to the buffer (no RPC, no failure);
    after a successful begin, the calls of a sequence send no commit
    request, and the commit that follows sends one request whose mutations
    are the [buffer_write] arguments concatenated in call order. *)
Theorem buffer_write_then_commit
  (srv : Server) (invalidates : Status -> bool) (ms : ManagedSession) (mode : Mode)
  (options : CallOptions) (tr : list Event) (t : ReadWriteTransaction) (tr1 : list Event)
  (ops : list Op) (copts : CommitOptions)
  (Hbegin : ReadWriteTransaction.begin_internal srv invalidates ms mode options tr = (Ok t, tr1)) :
  (forall (muts : list Mutation) (s : TxSt),
     ReadWriteTransaction.buffer_write muts s
     = (tt, {| tx := set_wb (wb (tx s) ++ muts) (tx s); trace := trace s |})) /\
  let s1 := snd (run_ops srv invalidates ops {| tx := t; trace := tr1 |}) in
  let s2 := snd (ReadWriteTransaction.commit srv invalidates copts s1) in
  (exists tr', trace s1 = tr ++ tr' /\ commit_requests tr' = []) /\
  (exists rq o, trace s2 = trace s1 ++ [EvRpc (RqCommit rq); EvReport o] /\
                cr_mutations rq = buffered_mutations ops).
Proof.
  split; [reflexivity |]. cbv zeta.
  destruct (begin_internal_ok _ _ _ _ _ _ _ _ Hbegin) as (H0 & Hwb & rq0 & o0 & Htr1).
  destruct (run_ops_effect srv invalidates ops {| tx := t; trace := tr1 |})
    as (tr' & Htr & _ & Hcr & Hwb' & _).
  { cbn [tx]. rewrite H0. reflexivity. }
  split.
  - exists ([EvRpc (RqBeginTransaction rq0); EvReport o0] ++ tr').
    split.
    + rewrite Htr. cbn [trace]. rewrite Htr1, app_assoc. reflexivity.
    + rewrite commit_requests_app, Hcr. reflexivity.
  - rewrite commit_method_step. cbn [snd trace].
    do 2 eexists. split; [reflexivity |].
    cbn [commit_request cr_mutations]. rewrite Hwb'. cbn [tx]. rewrite Hwb. reflexivity.
Qed.

Lemma buffer_write_then_commit_witness :
  (forall (muts : list Mutation) (s : TxSt),
     ReadWriteTransaction.buffer_write muts s
     = (tt, {| tx := set_wb (wb (tx s) ++ muts) (tx s); trace := trace s |})) /\
  let s1 := snd (run_ops srv_ok inv_not_found ops_demo {| tx := tx_open; trace := tr_begin |}) in
  let s2 := snd (ReadWriteTransaction.commit srv_ok inv_not_found CommitOptions_default s1) in
  (exists tr', trace s1 = [] ++ tr' /\ commit_requests tr' = []) /\
  (exists rq o, trace s2 = trace s1 ++ [EvRpc (RqCommit rq); EvReport o] /\
                cr_mutations rq = buffered_mutations ops_demo).
Proof.
  apply (buffer_write_then_commit srv_ok inv_not_found session0 ReadWrite
           CallOptions_default [] tx_open tr_begin ops_demo CommitOptions_default).
  reflexivity.
Defined.

(** C10 (as amended): [update] and [batch_update] take their sequence
    number from the counter and advance it before the RPC is sent, so the
    number is consumed whatever the RPC answers; after a successful begin,
    the first [2^64] mutating calls never reuse a sequence number. *)
Theorem seqno_consumed_before_send
  (srv : Server) (invalidates : Status -> bool) (ms : ManagedSession) (mode : Mode)
  (options : CallOptions) (tr : list Event) (t : ReadWriteTransaction) (tr1 : list Event)
  (ops : list Op)
  (Hbegin : ReadWriteTransaction.begin_internal srv invalidates ms mode options tr = (Ok t, tr1))
  (Hbound : Z.of_nat (mutating_calls ops) <= 2 ^ 64) :
  (forall stmt o s,
     let c := sequence_number (base_tx (tx s)) in
     let s' := snd (ReadWriteTransaction.update srv invalidates stmt o s) in
     sequence_number (base_tx (tx s')) = wrap_i64 (c + 1) /\
     seqnos_of_trace (trace s') = seqnos_of_trace (trace s) ++ [c]) /\
  (forall stmts o s,
     let c := sequence_number (base_tx (tx s)) in
     let s' := snd (ReadWriteTransaction.batch_update srv invalidates stmts o s) in
     sequence_number (base_tx (tx s')) = wrap_i64 (c + 1) /\
     seqnos_of_trace (trace s') = seqnos_of_trace (trace s) ++ [c]) /\
  (exists tr',
     trace (snd (run_ops srv invalidates ops {| tx := t; trace := tr1 |})) = tr1 ++ tr' /\
     NoDup (seqnos_of_trace tr')).
Proof.
  split; [| split]; cbv zeta.
  - intros stmt o s. rewrite update_step. cbn [snd tx trace].
    split; [reflexivity |]. rewrite seqnos_of_trace_app. reflexivity.
  - intros stmts o s. rewrite batch_update_step. cbn [snd tx trace].
    split; [reflexivity |]. rewrite seqnos_of_trace_app. reflexivity.
  - destruct (begin_internal_ok _ _ _ _ _ _ _ _ Hbegin) as (H0 & _).
    destruct (run_ops_effect srv invalidates ops {| tx := t; trace := tr1 |})
      as (tr' & Htr & Hseq & _).
    { cbn [tx]. rewrite H0. reflexivity. }
    exists tr'. split; [exact Htr |].
    rewrite Hseq. cbn [tx]. rewrite H0.
    apply NoDup_map_NoDup_ForallPairs; [| apply seq_NoDup].
    intros a b Ha Hb Hab. apply in_seq in Ha, Hb.
    apply wrap_i64_inj in Hab; lia.
Qed.

Lemma seqno_consumed_before_send_witness :
  (forall stmt o s,
     let c := sequence_number (base_tx (tx s)) in
     let s' := snd (ReadWriteTransaction.update srv_flaky inv_not_found stmt o s) in
     sequence_number (base_tx (tx s')) = wrap_i64 (c + 1) /\
     seqnos_of_trace (trace s') = seqnos_of_trace (trace s) ++ [c]) /\
  (forall stmts o s,
     let c := sequence_number (base_tx (tx s)) in
     let s' := snd (ReadWriteTransaction.batch_update srv_flaky inv_not_found
                      stmts o s) in
     sequence_number (base_tx (tx s')) = wrap_i64 (c + 1) /\
     seqnos_of_trace (trace s') = seqnos_of_trace (trace s) ++ [c]) /\
  (exists tr',
     trace (snd (run_ops srv_flaky inv_not_found ops_demo
                   {| tx := tx_open; trace := tr_begin |})) = tr_begin ++ tr' /\
     NoDup (seqnos_of_trace tr')).
Proof.
  apply (seqno_consumed_before_send srv_flaky inv_not_found session0 ReadWrite
           CallOptions_default [] tx_open tr_begin ops_demo).
  - reflexivity.
  - vm_compute. discriminate.
Defined.

(** C10 fails as stated: after [2^64] updates the [i64] counter is back
    at [0], so the [2^64 + 1]-th update on a fresh transaction reuses the
    sequence number of the first. *)
Lemma seqno_reuse_counterexample :
  exists tr',
    trace (snd (run_ops srv_ok inv_not_found
                  (repeat (OpUpdate stmt0 None) (Z.to_nat (2 ^ 64) + 1)) st_begun))
    = tr_begin ++ tr' /\
    ~ NoDup (seqnos_of_trace tr').
Proof.
  assert (Hn : Z.of_nat (Z.to_nat (2 ^ 64)) = 2 ^ 64) by (apply Z2Nat.id; lia).
  revert Hn. generalize (Z.to_nat (2 ^ 64)). intros n Hn.
  destruct (seqnos_after_begin (n + 1)) as (tr' & Htr & Hseq).
  exists tr'. split; [exact Htr |].
  rewrite Hseq. intros Hnd.
  assert (Hlen : List.length (map (fun k => wrap_i64 (0 + Z.of_nat k)) (seq 0 (n + 1))) = (n + 1)%nat)
    by (rewrite length_map, length_seq; reflexivity).
  assert (Heq : nth 0 (map (fun k => wrap_i64 (0 + Z.of_nat k)) (seq 0 (n + 1))) 0
                = nth n (map (fun k => wrap_i64 (0 + Z.of_nat k)) (seq 0 (n + 1))) 0).
  { rewrite !nth_map_seq by lia. rewrite Hn. vm_compute. reflexivity. }
  apply (proj1 (NoDup_nth _ 0) Hnd 0%nat n) in Heq; lia.
Qed.

(* ------------------------------------------------------------------ *)
(** ** Further properties of the transaction *)

(** What a call sequence keeps: the selector, the id and the session name;
    every event it adds is an execute request of this transaction or a
    report, and it sends one RPC per mutating call. *)
Lemma run_ops_identity (srv : Server) (invalidates : Status -> bool) (ops : list Op) :
  forall s,
  let s' := snd (run_ops srv invalidates ops s) in
  transaction_selector (base_tx (tx s')) = transaction_selector (base_tx (tx s)) /\
  tx_id (tx s') = tx_id (tx s) /\
  session_name_of s' = session_name_of s /\
  exists tr',
    trace s' = trace s ++ tr' /\
    Forall (statement_event (transaction_selector (base_tx (tx s))) (session_name_of s)) tr' /\
    List.length (filter is_rpc tr') = mutating_calls ops.
Proof.
  induction ops as [| op ops IH]; intros s; cbv zeta.
  - split; [reflexivity |]. split; [reflexivity |]. split; [reflexivity |].
    exists []. rewrite app_nil_r. auto.
  - rewrite run_ops_cons.
    destruct op as [stmt o | stmts o | ms].
    + rewrite run_op_update, update_step. cbn [snd].
      match goal with
      | |- context [snd (run_ops _ _ ops ?s1)] =>
          destruct (IH s1) as (Hsel & Hid & Hname & tr'' & Htr & Hall & Hlen)
      end.
      rewrite Hsel, Hid, Hname.
      unfold session_name_of, session_of in *.
      cbn [tx trace base_tx set_session set_sequence_number transaction_selector tx_id session] in *.
      rewrite (proj2 (reported_session_same_handle _ _ _)) in *.
      split; [reflexivity |]. split; [reflexivity |]. split; [reflexivity |].
      eexists. split; [rewrite Htr, <- app_assoc; reflexivity |]. split.
      * apply Forall_app. split; [| exact Hall].
        repeat constructor.
      * rewrite filter_app, length_app, Hlen. reflexivity.
    + rewrite run_op_batch_update, batch_update_step. cbn [snd].
      match goal with
      | |- context [snd (run_ops _ _ ops ?s1)] =>
          destruct (IH s1) as (Hsel & Hid & Hname & tr'' & Htr & Hall & Hlen)
      end.
      rewrite Hsel, Hid, Hname.
      unfold session_name_of, session_of in *.
      cbn [tx trace base_tx set_session set_sequence_number transaction_selector tx_id session] in *.
      rewrite (proj2 (reported_session_same_handle _ _ _)) in *.
      split; [reflexivity |]. split; [reflexivity |]. split; [reflexivity |].
      eexists. split; [rewrite Htr, <- app_assoc; reflexivity |]. split.
      * apply Forall_app. split; [| exact Hall].
        repeat constructor.
      * rewrite filter_app, length_app, Hlen. reflexivity.
    + cbn [run_op ReadWriteTransaction.buffer_write modify_tx snd].
      destruct (IH {| tx := set_wb (wb (tx s) ++ ms) (tx s); trace := trace s |})
        as (Hsel & Hid & Hname & tr'' & Htr & Hall & Hlen).
      cbn [tx trace set_wb base_tx tx_id] in *.
      split; [exact Hsel |]. split; [exact Hid |]. split; [exact Hname |].
      exists tr''. auto.
Qed.

Lemma begin_internal_ok_identity (srv : Server) (invalidates : Status -> bool)
  (ms : ManagedSession) (mode : Mode) (options : CallOptions) (tr : list Event)
  (t : ReadWriteTransaction) (tr1 : list Event) :
  ReadWriteTransaction.begin_internal srv invalidates ms mode options tr = (Ok t, tr1) ->
  transaction_selector (base_tx t) = {| selector := Some (Selector_Id (tx_id t)) |} /\
  name (ms_session (session (base_tx t))) = name (ms_session ms).
Proof.
  unfold ReadWriteTransaction.begin_internal.
  destruct (srv_begin_transaction _ _ _) as [p | e]; cbn;
    [| destruct (invalidates e); cbn]; intros H; inversion H; subst.
  split; reflexivity.
Qed.




(** After a successful begin, every request a sequence of [update],
    [batch_update] and [buffer_write] calls sends is an execute request
    carrying the transaction's own id as selector and the session's name;
    no other request is sent, and the transaction id is kept. *)
Theorem statements_carry_transaction_id
  (srv : Server) (invalidates : Status -> bool) (ms : ManagedSession) (mode : Mode)
  (options : CallOptions) (tr : list Event) (t : ReadWriteTransaction) (tr1 : list Event)
  (ops : list Op)
  (Hbegin : ReadWriteTransaction.begin_internal srv invalidates ms mode options tr = (Ok t, tr1)) :
  let s' := snd (run_ops srv invalidates ops {| tx := t; trace := tr1 |}) in
  tx_id (tx s') = tx_id t /\
  exists tr',
    trace s' = tr1 ++ tr' /\
    Forall (statement_event {| selector := Some (Selector_Id (tx_id t)) |} (name (ms_session ms))) tr'.
Proof.
  cbv zeta.
  destruct (begin_internal_ok_identity _ _ _ _ _ _ _ _ Hbegin) as (Hsel & Hname).
  destruct (run_ops_identity srv invalidates ops {| tx := t; trace := tr1 |})
    as (_ & Hid & _ & tr' & Htr & Hall & _).
  split; [exact Hid |].
  exists tr'. split; [exact Htr |].
  unfold session_name_of, session_of in Hall. cbn [tx] in Hall.
  rewrite Hsel, Hname in Hall. exact Hall.
Qed.

Lemma statements_carry_transaction_id_witness :
  let s' := snd (run_ops srv_ok inv_not_found ops_demo {| tx := tx_open; trace := tr_begin |}) in
  tx_id (tx s') = tx_id tx_open /\
  exists tr',
    trace s' = tr_begin ++ tr' /\
    Forall (statement_event {| selector := Some (Selector_Id (tx_id tx_open)) |}
              (name (ms_session session0))) tr'.
Proof.
  apply (statements_carry_transaction_id srv_ok inv_not_found session0 ReadWrite
           CallOptions_default [] tx_open tr_begin ops_demo).
  reflexivity.
Defined.

(** A call sequence sends exactly one RPC per mutating call ([update] or
    [batch_update]) and none for [buffer_write]; it never sends a begin,
    commit or rollback request. *)
Theorem call_sequence_rpcs (srv : Server) (invalidates : Status -> bool) (ops : list Op)
  (s : TxSt) :
  exists tr',
    trace (snd (run_ops srv invalidates ops s)) = trace s ++ tr' /\
    List.length (filter is_rpc tr') = mutating_calls ops /\
    Forall (fun e => match e with
                     | EvRpc (RqExecuteSql _) | EvRpc (RqExecuteBatchDml _) | EvReport _ => True
                     | EvRpc _ => False
                     end) tr'.
Proof.
  destruct (run_ops_identity srv invalidates ops s) as (_ & _ & _ & tr' & Htr & Hall & Hlen).
  exists tr'. split; [exact Htr |]. split; [exact Hlen |].
  eapply Forall_impl; [| exact Hall].
  intros [[r | r | r | r | r] | o]; cbn; tauto.
Qed.



(** Only [update] and [batch_update] consume sequence numbers:
    [buffer_write], [commit], [rollback] and [finish] leave the counter and
    the transaction selector as they were. *)
Theorem non_mutating_calls_keep_counter
  (srv : Server) (invalidates : Status -> bool) {T E : Type}
  `{AsTonicStatus E} `{FromStatus E} :
  (forall muts s,
     let s' := snd (ReadWriteTransaction.buffer_write muts s) in
     sequence_number (base_tx (tx s')) = sequence_number (base_tx (tx s)) /\
     transaction_selector (base_tx (tx s')) = transaction_selector (base_tx (tx s))) /\
  (forall options s,
     let s' := snd (ReadWriteTransaction.commit srv invalidates options s) in
     sequence_number (base_tx (tx s')) = sequence_number (base_tx (tx s)) /\
     transaction_selector (base_tx (tx s')) = transaction_selector (base_tx (tx s))) /\
  (forall s,
     let s' := snd (ReadWriteTransaction.rollback srv invalidates s) in
     sequence_number (base_tx (tx s')) = sequence_number (base_tx (tx s)) /\
     transaction_selector (base_tx (tx s')) = transaction_selector (base_tx (tx s))) /\
  (forall (result : Result T E) options s,
     let s' := snd (ReadWriteTransaction.finish srv invalidates result options s) in
     sequence_number (base_tx (tx s')) = sequence_number (base_tx (tx s)) /\
     transaction_selector (base_tx (tx s')) = transaction_selector (base_tx (tx s))).
Proof.
  split; [| split; [| split]]; cbv zeta.
  - intros muts s. split; reflexivity.
  - intros options s. rewrite commit_method_step. split; reflexivity.
  - intros s. rewrite rollback_step. split; reflexivity.
  - intros result options s. unfold ReadWriteTransaction.finish.
    destruct result as [v | err].
    + unfold bind. rewrite commit_method_step. split; reflexivity.
    + destruct (as_tonic_status err) as [st |].
      * destruct (code st); unfold bind; try rewrite rollback_step; split; reflexivity.
      * unfold bind. rewrite rollback_step. split; reflexivity.
Qed.


(** [finish] sends at most one RPC: a commit when the business logic
    succeeded, and otherwise either nothing or a rollback; it never sends
    a statement or a second finalisation request. *)
Theorem finish_sends_at_most_one_rpc
  (srv : Server) (invalidates : Status -> bool) {T E : Type}
  `{AsTonicStatus E} `{FromStatus E}
  (result : Result T E) (options : option CommitOptions) (s : TxSt) :
  let s' := snd (ReadWriteTransaction.finish srv invalidates result options s) in
  match result with
  | Ok _ => exists rq o, trace s' = trace s ++ [EvRpc (RqCommit rq); EvReport o]
  | Err _ => trace s' = trace s \/
             exists rq o, trace s' = trace s ++ [EvRpc (RqRollback rq); EvReport o]
  end.
Proof.
  cbv zeta. destruct result as [v | err].
  - rewrite finish_ok_step. cbn [snd trace]. do 2 eexists. reflexivity.
  - unfold ReadWriteTransaction.finish.
    destruct (as_tonic_status err) as [st |].
    + destruct (code st); unfold bind; try rewrite rollback_step; cbn [snd trace];
        first [left; reflexivity | right; do 2 eexists; reflexivity].
    + unfold bind. rewrite rollback_step. cbn [snd trace].
      right. do 2 eexists. reflexivity.
Qed.

(** End to end: after a successful begin and any sequence of statement
    and [buffer_write] calls, [finish] on a success sends one commit, on the
    begin's session, carrying all buffered mutations in call order and the
    id the begin returned, and returns the commit timestamp with the value
    (or the commit error). *)
Theorem begin_calls_finish_commits
  (srv : Server) (invalidates : Status -> bool) {T E : Type}
  `{AsTonicStatus E} `{FromStatus E}
  (ms : ManagedSession) (mode : Mode) (options : CallOptions) (tr : list Event)
  (t : ReadWriteTransaction) (tr1 : list Event) (ops : list Op) (v : T)
  (copts : option CommitOptions)
  (Hbegin : ReadWriteTransaction.begin_internal srv invalidates ms mode options tr = (Ok t, tr1)) :
  let s1 := snd (run_ops srv invalidates ops {| tx := t; trace := tr1 |}) in
  let rq := commit_request (name (ms_session ms)) (buffered_mutations ops)
              (TransactionId (tx_id t)) (commit_options_or_default copts) in
  let raw := srv_commit srv (trace s1) rq in
  let (r, s2) := ReadWriteTransaction.finish srv invalidates (@Ok T E v) copts s1 in
  trace s2 = trace s1 ++ [EvRpc (RqCommit rq); EvReport (outcome raw)] /\
  r = match raw with
      | Ok c => Ok (commit_timestamp c, v)
      | Err e => Err (from_status e)
      end.
Proof.
  cbv zeta.
  destruct (begin_internal_ok _ _ _ _ _ _ _ _ Hbegin) as (Hseq0 & Hwb & _).
  destruct (begin_internal_ok_identity _ _ _ _ _ _ _ _ Hbegin) as (_ & Hname).
  destruct (run_ops_effect srv invalidates ops {| tx := t; trace := tr1 |})
    as (_ & _ & _ & _ & Hwb' & Hid).
  { cbn [tx]. rewrite Hseq0. reflexivity. }
  destruct (run_ops_identity srv invalidates ops {| tx := t; trace := tr1 |})
    as (_ & _ & Hn & _).
  rewrite finish_ok_step. cbn [fst snd trace].
  rewrite Hn, Hwb', Hid. cbn [tx]. rewrite Hwb.
  unfold session_name_of, session_of. cbn [tx]. rewrite Hname.
  split; reflexivity.
Qed.

Lemma begin_calls_finish_commits_witness :
  let s1 := snd (run_ops srv_ok inv_not_found ops_demo {| tx := tx_open; trace := tr_begin |}) in
  let rq := commit_request (name (ms_session session0)) (buffered_mutations ops_demo)
              (TransactionId (tx_id tx_open)) (commit_options_or_default None) in
  let raw := srv_commit srv_ok (trace s1) rq in
  let (r, s2) := ReadWriteTransaction.finish srv_ok inv_not_found (@Ok nat Status 1%nat) None s1 in
  trace s2 = trace s1 ++ [EvRpc (RqCommit rq); EvReport (outcome raw)] /\
  r = match raw with
      | Ok c => Ok (commit_timestamp c, 1%nat)
      | Err e => Err (from_status e)
      end.
Proof.
  apply (begin_calls_finish_commits srv_ok inv_not_found session0 ReadWrite CallOptions_default []
           tx_open tr_begin ops_demo 1%nat None).
  reflexivity.
Defined.
